(** * api/submit-score.js: the score submission handler

    A shallow embedding of the serverless handler of [api/submit-score.js]
    and of the leaderboard processing it performs (append, sort by
    [shrimps] descending, keep the first ten), with the properties of the
    written specification stated and proved on it. *)

From Stdlib Require Import List String Ascii Bool Arith ZArith QArith Lia.
From Stdlib Require Import Sorting.Sorted Sorting.Permutation.
Import ListNotations.
Local Open Scope string_scope.
Local Close Scope Q_scope.
Local Open Scope list_scope.
Set Warnings "-register-all".

(** ** JavaScript numbers

    [req.body] and the store's reply are decoded JSON, so the numbers the
    handler sees are finite doubles and, for a literal that overflows
    (such as 1e999), an infinity; JSON has no NaN. A finite double is a
    dyadic rational, carried here as a [Q]. NaN only arises as the result
    of an operation and is the [None] of [option number]. *)

Inductive number : Type :=
| NegInf
| Fin (q : Q)
| PosInf.

(** [x < y] on numbers. *)
Definition num_ltb (x y : number) : bool :=
  match x, y with
  | NegInf, NegInf => false
  | NegInf, _ => true
  | Fin _, NegInf => false
  | Fin p, Fin q => match (p ?= q)%Q with Lt => true | _ => false end
  | Fin _, PosInf => true
  | PosInf, _ => false
  end.

(** [x <= y] on numbers. *)
Definition num_leb (x y : number) : bool := negb (num_ltb y x).

(** Numeric equality ([1/2] and [2/4] denote the same number). *)
Definition num_eqb (x y : number) : bool := num_leb x y && num_leb y x.

(** [x - y]. The difference of two finite doubles is rounded, but its sign
    is that of the exact difference (doubles have gradual underflow, and an
    overflow keeps the sign), and only the sign is used by the sort.
    Infinity minus itself is NaN. *)
Definition num_sub (x y : number) : option number :=
  match x, y with
  | Fin p, Fin q => Some (Fin (p - q))
  | PosInf, PosInf => None
  | NegInf, NegInf => None
  | PosInf, _ => Some PosInf
  | NegInf, _ => Some NegInf
  | Fin _, PosInf => Some NegInf
  | Fin _, NegInf => Some PosInf
  end.

(** ** JavaScript values, as decoded from JSON *)

Inductive value : Type :=
| VUndefined
| VNull
| VBool (b : bool)
| VNumber (n : number)
| VString (s : string)
| VArray (elems : list value)
| VObject (props : list (string * value)).

(** Own property of a decoded object. *)
Fixpoint lookup (k : string) (props : list (string * value)) : option value :=
  match props with
  | [] => None
  | (k', v) :: rest => if String.eqb k k' then Some v else lookup k rest
  end.

(** ** Score entries and leaderboards *)

(** [{ name, shrimps, date }]: the name is whatever value passed the check
    of the handler, the date an ISO-8601 text. *)
Record ScoreEntry : Type := mkScore {
  name : value;
  shrimps : number;
  date : string
}.

Definition Leaderboard : Type := list ScoreEntry.

(** ** The processing of lines 52-54 *)

(** [(a, b) => b.shrimps - a.shrimps] *)
Definition comparefn (a b : ScoreEntry) : option number :=
  num_sub (shrimps b) (shrimps a).

(** SortCompare of ECMAScript's Array.prototype.sort: the sign of the
    comparator's result, a NaN result counting as +0. *)
Definition SortCompare (x y : ScoreEntry) : comparison :=
  match comparefn x y with
  | None => Eq
  | Some NegInf => Lt
  | Some (Fin d) => (d ?= 0)%Q
  | Some PosInf => Gt
  end.

(** [Array.prototype.sort] with this comparator. ECMAScript (2019 and
    later) requires the sort to be stable, and the comparator is a
    consistent one on numbers, so the result is the one list that is a
    sorted, order-preserving rearrangement of the array (see
    [stable_sort_unique] below); a straight insertion sort computes it.
    An element moves behind another only when SortCompare is positive. *)
Fixpoint insert (x : ScoreEntry) (l : Leaderboard) : Leaderboard :=
  match l with
  | [] => [x]
  | y :: l' =>
      match SortCompare x y with
      | Gt => y :: insert x l'
      | _ => x :: y :: l'
      end
  end.

Fixpoint sort (l : Leaderboard) : Leaderboard :=
  match l with
  | [] => []
  | x :: l' => insert x (sort l')
  end.

(** [leaders.push(newScore); leaders.sort(...); leaders = leaders.slice(0, 10)] *)
Definition push (leaders : Leaderboard) (newScore : ScoreEntry) : Leaderboard :=
  leaders ++ [newScore].

Definition slice_0_10 (leaders : Leaderboard) : Leaderboard := firstn 10 leaders.

Definition merge (leaders : Leaderboard) (newScore : ScoreEntry) : Leaderboard :=
  slice_0_10 (sort (push leaders newScore)).

(** ** Property reads and coercions *)

(** ToBoolean *)
Definition truthy (v : value) : bool :=
  match v with
  | VUndefined | VNull => false
  | VBool b => b
  | VNumber (Fin q) => negb (Qeq_bool q 0)
  | VNumber _ => true
  | VString s => negb (String.eqb s "")
  | VArray _ | VObject _ => true
  end.

Definition of_nat (n : nat) : number := Fin (inject_Z (Z.of_nat n)).

(** [o.k] for [o] other than undefined and null (a read on those throws,
    see [destructure]; the check of line 24 reads [name.length] only after
    [!name] came out false). Texts and arrays have a [length]. *)
Definition get_prop (o : value) (k : string) : value :=
  match o with
  | VObject props =>
      match lookup k props with Some v => v | None => VUndefined end
  | VString s => if String.eqb k "length" then VNumber (of_nat (String.length s)) else VUndefined
  | VArray l => if String.eqb k "length" then VNumber (of_nat (List.length l)) else VUndefined
  | _ => VUndefined
  end.

(** [typeof v !== 'number'] *)
Definition typeof_not_number (v : value) : bool :=
  match v with VNumber _ => false | _ => true end.

(** ** The handler's effects *)

(** [res.status(code).json(body)] *)
Inductive ResBody : Type :=
| Message (s : string)   (* { message: s } *)
| Error (s : string).    (* { error: s } *)

Record Reply : Type := mkReply { status : nat; json_body : ResBody }.

Inductive error : Type := TypeError | FetchError | SyntaxError.

(** What leaves the function: calls to the store and console output. *)
Inductive event : Type :=
| FetchGet                              (* fetch(LEADERBOARD_API, { headers }) *)
| FetchPut (leaders : Leaderboard)      (* fetch(LEADERBOARD_API, { method: 'PUT', ..., body }) *)
| ConsoleError (msg detail : string).

Inductive result (A : Type) : Type :=
| Next (a : A)            (* evaluation goes on with [a] *)
| Returned (r : Reply)    (* a [return res.status(..).json(..)] was executed *)
| Thrown (e : error).

Arguments Next {A} a.
Arguments Returned {A} r.
Arguments Thrown {A} e.

Definition M (A : Type) : Type := (result A * list event)%type.

Definition pure {A} (a : A) : M A := (Next a, []).

Definition bind {A B} (m : M A) (k : A -> M B) : M B :=
  match m with
  | (Next a, t) => let (r, t') := k a in (r, t ++ t')
  | (Returned r, t) => (Returned r, t)
  | (Thrown e, t) => (Thrown e, t)
  end.

Notation "x <- m ;; k" := (bind m (fun x => k))
  (at level 61, m at next level, right associativity).
Notation "m ;;; k" := (bind m (fun _ => k))
  (at level 61, right associativity).

Definition emit (e : event) : M unit := (Next tt, [e]).
Definition return_ {A} (r : Reply) : M A := (Returned r, []).
Definition throw {A} (e : error) : M A := (Thrown e, []).

(** [try { m } catch (error) { h error }] *)
Definition try_catch {A} (m : M A) (h : error -> M A) : M A :=
  match m with
  | (Thrown e, t) => let (r, t') := h e in (r, t ++ t')
  | _ => m
  end.

Definition console_error (msg detail : string) : M unit :=
  emit (ConsoleError msg detail).

(** ** The document store, as the handler meets it *)

(** The bin, of the structure the source assumes,
    [{ "record": { "leaders": [...] } }]; [leaders] is [None] when the
    field is missing (or null), which [|| []] turns into the empty array.
    Only documents of this structure, with entries whose [shrimps] is a
    number, are covered: line 44 takes the decoded document unchecked, and
    a document without [record], with a [leaders] that is not an array, or
    with entries of another shape is outside this type. *)
Record Bin : Type := mkBin { leaders : option Leaderboard }.
Record Document : Type := mkDocument { record : Bin }.

(** A response of [fetch]: [json] is [None] when the body does not decode. *)
Record Response : Type := mkResponse {
  ok : bool;
  text : string;
  json : option Document
}.

(** How the store answers the two calls of one request; [None] stands for
    a [fetch] that rejects. *)
Record Store : Type := mkStore {
  get_reply : option Response;
  put_reply : Leaderboard -> option Response
}.

Definition fetch_get (store : Store) : M Response :=
  emit FetchGet ;;;
  match get_reply store with Some r => pure r | None => throw FetchError end.

(** The event of the write carries the array [leaders] that line 65 hands
    to [JSON.stringify], not the text that is sent: the serialisation (which
    writes a non-finite [shrimps] as null) is not part of the model. *)
Definition fetch_put (store : Store) (body : Leaderboard) : M Response :=
  emit (FetchPut body) ;;;
  match put_reply store body with Some r => pure r | None => throw FetchError end.

Definition response_json (r : Response) : M Document :=
  match json r with Some d => pure d | None => throw SyntaxError end.

(** ** The request *)

Record Request : Type := mkRequest { method : string; body : value }.

(** [const { name, shrimps } = req.body;] throws on undefined and null. *)
Definition destructure (b : value) : M (value * value) :=
  match b with
  | VUndefined | VNull => throw TypeError
  | _ => pure (get_prop b "name", get_prop b "shrimps")
  end.

(** The [shrimps] that passed [typeof shrimps !== 'number'], as the number
    it is; the other branch is not reached after the check ([invalid_number]). *)
Definition as_number (v : value) : M number :=
  match v with VNumber n => pure n | _ => throw TypeError end.

Definition error_name (e : error) : string :=
  match e with
  | TypeError => "TypeError"
  | FetchError => "FetchError"
  | SyntaxError => "SyntaxError"
  end.

(** ** The check of line 24 and the handler *)

Section Handler.

(** ECMAScript's ToNumber on a text, and on an array or object (which
    ToPrimitive first turns into a text); [None] is NaN. The handler
    reaches it only when [name] is an object whose own [length] property
    is such a value, and every result below holds whatever it returns. *)
Variable TextToNumber : value -> option number.

Definition ToNumber (v : value) : option number :=
  match v with
  | VUndefined => None
  | VNull => Some (Fin 0)
  | VBool true => Some (Fin 1)
  | VBool false => Some (Fin 0)
  | VNumber n => Some n
  | VString _ | VArray _ | VObject _ => TextToNumber v
  end.

(** [v < n] and [v > n] against a number: false when [v] coerces to NaN. *)
Definition js_lt (v : value) (n : number) : bool :=
  match ToNumber v with Some x => num_ltb x n | None => false end.

Definition js_gt (v : value) (n : number) : bool :=
  match ToNumber v with Some x => num_ltb n x | None => false end.

(** Line 24:
    [!name || typeof shrimps !== 'number' || shrimps < 1 || name.length > 20] *)
Definition invalid (name shrimps : value) : bool :=
  negb (truthy name) || typeof_not_number shrimps || js_lt shrimps (Fin 1)
  || js_gt (get_prop name "length") (Fin 20).

(** ** [export default async function handler(req, res)]

    [now] is [new Date().toISOString()] at line 48. *)
Definition handler (now : string) (store : Store) (req : Request) : M unit :=
  if negb (String.eqb (method req) "POST") then
    return_ (mkReply 405 (Message "Method Not Allowed"))
  else
    try_catch
      (ns <- destructure (body req) ;;
       let (name, shrimps) := (ns : value * value) in
       if invalid name shrimps then
         return_ (mkReply 400 (Error "Invalid score data."))
       else
         getResponse <- fetch_get store ;;
         if negb (ok getResponse) then
           console_error "Failed to fetch existing leaderboard:" (text getResponse) ;;;
           return_ (mkReply 500 (Error "Failed to retrieve current leaderboard."))
         else
           currentData <- response_json getResponse ;;
           let leaders0 :=
             match leaders (record currentData) with Some l => l | None => [] end in
           n <- as_number shrimps ;;
           let newScore := mkScore name n now in
           let leaders1 := merge leaders0 newScore in
           putResponse <- fetch_put store leaders1 ;;
           if negb (ok putResponse) then
             console_error "Failed to update leaderboard:" (text putResponse) ;;;
             return_ (mkReply 500 (Error "Failed to update leaderboards."))
           else
             return_ (mkReply 200
               (Message "Score submitted and leaderboard updated successfully.")))
      (fun error =>
         console_error "Serverless function error:" (error_name error) ;;;
         return_ (mkReply 500 (Error "An unexpected error occurred."))).

(** The payload passes line 20 and the check of line 24. *)
Definition accepts (payload : value) : bool :=
  match payload with
  | VUndefined | VNull => false
  | _ => negb (invalid (get_prop payload "name") (get_prop payload "shrimps"))
  end.

(** A POST request whose body destructures into [name] and a number [n]
    that pass the check of line 24. *)
Definition valid_post (req : Request) (name : value) (n : number) : Prop :=
  method req = "POST" /\
  body req <> VUndefined /\ body req <> VNull /\
  get_prop (body req) "name" = name /\
  get_prop (body req) "shrimps" = VNumber n /\
  invalid name (VNumber n) = false.

End Handler.

(** ** What the properties are stated with *)

(** [a] may stand before [b]. *)
Definition descending (a b : ScoreEntry) : Prop :=
  num_leb (shrimps b) (shrimps a) = true.

Definition sorted_desc (l : Leaderboard) : Prop := StronglySorted descending l.

(** The entries with [k] shrimps. *)
Definition with_shrimps (k : number) (x : ScoreEntry) : bool :=
  num_eqb (shrimps x) k.

(** The rules as the specification words them: [name] present, a text of
    1 to 20 characters; [shrimps] present, a number not less than 1. *)
Definition spec_valid (payload : value) : bool :=
  match get_prop payload "name", get_prop payload "shrimps" with
  | VString s, VNumber n =>
      (1 <=? String.length s)%nat && (String.length s <=? 20)%nat && num_leb (Fin 1) n
  | _, _ => false
  end.

(** A [name] that is a text, or that [!name] rejects (missing, null,
    false, zero; the empty text is both). *)
Definition text_or_falsy (v : value) : Prop :=
  (exists s, v = VString s) \/ truthy v = false.

Definition post (payload : value) : Request := mkRequest "POST" payload.

(** The leaderboard the store hands out, [[]] when there is none. *)
Definition current_leaders (store : Store) : Leaderboard :=
  match get_reply store with
  | Some r =>
      match json r with
      | Some d => match leaders (record d) with Some l => l | None => [] end
      | None => []
      end
  | None => []
  end.

Definition reply_400 : Reply := mkReply 400 (Error "Invalid score data.").
Definition reply_405 : Reply := mkReply 405 (Message "Method Not Allowed").
Definition reply_500_read : Reply :=
  mkReply 500 (Error "Failed to retrieve current leaderboard.").
Definition reply_200 : Reply :=
  mkReply 200 (Message "Score submitted and leaderboard updated successfully.").

(** ** Concrete requests and stores *)

(** The coercion of a text that is not a numeric literal: NaN. None of the
    requests below reaches it. *)
Definition not_numeric : value -> option number := fun _ => None.

Definition server_time : string := "2024-05-01T12:00:00.000Z".

Definition score (who : string) (k : Z) (day : string) : ScoreEntry :=
  mkScore (VString who) (Fin (inject_Z k)) day.

Definition payload (name shrimps : value) : value :=
  VObject [("name", name); ("shrimps", shrimps)].

Definition bob_5 : value := payload (VString "bob") (VNumber (Fin 5)).
Definition empty_name_5 : value := payload (VString "") (VNumber (Fin 5)).
Definition name_42 : value := payload (VNumber (Fin 42)) (VNumber (Fin 5)).

Definition put_ok : Response := mkResponse true "" None.

(** A store whose bin has no [leaders] yet. *)
Definition store_fresh : Store :=
  mkStore (Some (mkResponse true "" (Some (mkDocument (mkBin None)))))
          (fun _ => Some put_ok).

(** A store that holds three entries. *)
Definition three : Leaderboard :=
  [score "ann" 9 "d1"; score "cy" 5 "d2"; score "dee" 2 "d3"].

Definition store_three : Store :=
  mkStore (Some (mkResponse true "" (Some (mkDocument (mkBin (Some three))))))
          (fun _ => Some put_ok).

(** A store whose read is refused. *)
Definition store_refusing : Store :=
  mkStore (Some (mkResponse false "Bin not found" None)) (fun _ => Some put_ok).

(** A full board. *)
Definition ten : Leaderboard :=
  [score "a" 140 "d"; score "b" 130 "d"; score "c" 120 "d"; score "d" 110 "d";
   score "e" 100 "d"; score "f" 90 "d"; score "g" 80 "d"; score "h" 70 "d";
   score "i" 60 "d"; score "j" 50 "d"].

(** The same submission, with and without fields of the client's own. *)
Definition bob_5_backdated : list (string * value) :=
  [("date", VString "1999-01-01T00:00:00.000Z"); ("name", VString "bob");
   ("shrimps", VNumber (Fin 5)); ("admin", VBool true)].

Definition bob_5_plain : list (string * value) :=
  [("name", VString "bob"); ("shrimps", VNumber (Fin 5))].

(** ** The runs of the handler, case by case *)

Definition reply_500_write : Reply :=
  mkReply 500 (Error "Failed to update leaderboards.").
Definition reply_500_unexpected : Reply :=
  mkReply 500 (Error "An unexpected error occurred.").

(** The answers that appear in the source. *)
Definition replies : list Reply :=
  [reply_405; reply_400; reply_500_read; reply_500_write; reply_500_unexpected;
   reply_200].

Definition is_store_call (e : event) : bool :=
  match e with
  | FetchGet | FetchPut _ => true
  | ConsoleError _ _ => false
  end.

(** The calls to the store in a run, in order. *)
Definition store_calls (t : list event) : list event := filter is_store_call t.

(** What a request with [name] and [n] shrimps writes at time [now]. *)
Definition written (store : Store) (name : value) (n : number) (now : string)
  : Leaderboard :=
  merge (current_leaders store) (mkScore name n now).

(** The number of entries of [L] that have at least the shrimps of [e]. *)
Definition rank (e : ScoreEntry) (L : Leaderboard) : nat :=
  List.length (filter (fun x => num_leb (shrimps e) (shrimps x)) L).

(** The nine ways through the handler, each with the condition that
    selects it and the run it gives ([handler_run_spec] shows that the
    handler follows them). *)
Inductive handler_run (tn : value -> option number) (now : string)
    (store : Store) (req : Request) : M unit -> Prop :=
| RunNotPost :
    method req <> "POST" ->
    handler_run tn now store req (Returned reply_405, [])
| RunNoBody :
    method req = "POST" ->
    body req = VUndefined \/ body req = VNull ->
    handler_run tn now store req
      (Returned reply_500_unexpected,
       [ConsoleError "Serverless function error:" "TypeError"])
| RunInvalid :
    method req = "POST" ->
    body req <> VUndefined -> body req <> VNull ->
    invalid tn (get_prop (body req) "name") (get_prop (body req) "shrimps") = true ->
    handler_run tn now store req (Returned reply_400, [])
| RunReadRejected name n :
    valid_post tn req name n ->
    get_reply store = None ->
    handler_run tn now store req
      (Returned reply_500_unexpected,
       [FetchGet; ConsoleError "Serverless function error:" "FetchError"])
| RunReadRefused name n r :
    valid_post tn req name n ->
    get_reply store = Some r -> ok r = false ->
    handler_run tn now store req
      (Returned reply_500_read,
       [FetchGet; ConsoleError "Failed to fetch existing leaderboard:" (text r)])
| RunReadUndecoded name n r :
    valid_post tn req name n ->
    get_reply store = Some r -> ok r = true -> json r = None ->
    handler_run tn now store req
      (Returned reply_500_unexpected,
       [FetchGet; ConsoleError "Serverless function error:" "SyntaxError"])
| RunWriteRejected name n r d :
    valid_post tn req name n ->
    get_reply store = Some r -> ok r = true -> json r = Some d ->
    put_reply store (written store name n now) = None ->
    handler_run tn now store req
      (Returned reply_500_unexpected,
       [FetchGet; FetchPut (written store name n now);
        ConsoleError "Serverless function error:" "FetchError"])
| RunWriteRefused name n r d p :
    valid_post tn req name n ->
    get_reply store = Some r -> ok r = true -> json r = Some d ->
    put_reply store (written store name n now) = Some p -> ok p = false ->
    handler_run tn now store req
      (Returned reply_500_write,
       [FetchGet; FetchPut (written store name n now);
        ConsoleError "Failed to update leaderboard:" (text p)])
| RunWritten name n r d p :
    valid_post tn req name n ->
    get_reply store = Some r -> ok r = true -> json r = Some d ->
    put_reply store (written store name n now) = Some p -> ok p = true ->
    handler_run tn now store req
      (Returned reply_200, [FetchGet; FetchPut (written store name n now)]).

(** More stores: one that cannot be reached, one whose reply does not
    decode, one that refuses the write, one whose write cannot be sent. *)
Definition store_unreachable : Store := mkStore None (fun _ => None).

Definition store_garbled : Store :=
  mkStore (Some (mkResponse true "<html>" None)) (fun _ => Some put_ok).

Definition put_refused : Response := mkResponse false "Bin too large" None.

Definition store_write_refused : Store :=
  mkStore (Some (mkResponse true "" (Some (mkDocument (mkBin (Some three))))))
          (fun _ => Some put_refused).

Definition store_write_lost : Store :=
  mkStore (Some (mkResponse true "" (Some (mkDocument (mkBin (Some three))))))
          (fun _ => None).

(** * Properties *)

(** ** The order on numbers *)

Lemma num_ltb_Fin (p q : Q) : num_ltb (Fin p) (Fin q) = true <-> (p < q)%Q.
Proof.
  simpl. rewrite Qlt_alt. destruct (p ?= q)%Q; split; congruence.
Qed.

Lemma num_ltb_irrefl (x : number) : num_ltb x x = false.
Proof.
  destruct x as [|q|]; simpl; trivial.
  destruct (num_ltb (Fin q) (Fin q)) eqn:E; trivial.
  apply num_ltb_Fin in E. exfalso. exact (Qlt_irrefl q E).
Qed.

Lemma num_ltb_asym (x y : number) : num_ltb x y = true -> num_ltb y x = false.
Proof.
  destruct x as [|p|], y as [|q|]; simpl; trivial; try discriminate.
  intros H. apply num_ltb_Fin in H.
  destruct (num_ltb (Fin q) (Fin p)) eqn:E; trivial.
  apply num_ltb_Fin in E. exfalso.
  exact (Qlt_irrefl p (Qlt_trans _ _ _ H E)).
Qed.

Lemma num_leb_refl (x : number) : num_leb x x = true.
Proof. unfold num_leb. now rewrite num_ltb_irrefl. Qed.

Lemma num_leb_total (x y : number) : num_leb x y = true \/ num_leb y x = true.
Proof.
  unfold num_leb. destruct (num_ltb y x) eqn:E; [right | now left].
  now rewrite (num_ltb_asym _ _ E).
Qed.

Lemma num_leb_Fin (p q : Q) : num_leb (Fin p) (Fin q) = true <-> (p <= q)%Q.
Proof.
  unfold num_leb. rewrite negb_true_iff. split.
  - intros H. apply Qnot_lt_le. intro A. apply num_ltb_Fin in A. congruence.
  - intros H. destruct (num_ltb (Fin q) (Fin p)) eqn:E; trivial.
    apply num_ltb_Fin in E. exfalso. exact (Qlt_irrefl q (Qlt_le_trans _ _ _ E H)).
Qed.

Lemma num_leb_trans (x y z : number) :
  num_leb x y = true -> num_leb y z = true -> num_leb x z = true.
Proof.
  destruct x as [|p|], y as [|q|], z as [|r|];
    try (rewrite !num_leb_Fin; apply Qle_trans);
    unfold num_leb; simpl; intros H1 H2; trivial; discriminate.
Qed.

Lemma num_ltb_leb (x y : number) : num_ltb x y = true -> num_leb x y = true.
Proof. intros H. unfold num_leb. now rewrite (num_ltb_asym _ _ H). Qed.

Lemma num_eqb_sym (x y : number) : num_eqb x y = num_eqb y x.
Proof. unfold num_eqb. apply andb_comm. Qed.

Lemma num_eqb_refl (x : number) : num_eqb x x = true.
Proof. unfold num_eqb. now rewrite num_leb_refl. Qed.

Lemma num_eqb_trans (x y z : number) :
  num_eqb x y = true -> num_eqb y z = true -> num_eqb x z = true.
Proof.
  unfold num_eqb. rewrite !andb_true_iff. intros [A B] [C D]. split.
  - exact (num_leb_trans _ _ _ A C).
  - exact (num_leb_trans _ _ _ D B).
Qed.

(** The comparator asks for a swap exactly when the first entry has
    strictly fewer shrimps than the second. *)
Lemma SortCompare_Gt (x y : ScoreEntry) :
  SortCompare x y = Gt <-> num_ltb (shrimps x) (shrimps y) = true.
Proof.
  unfold SortCompare, comparefn.
  destruct (shrimps x) as [|p|], (shrimps y) as [|q|]; simpl;
    try (split; congruence).
  rewrite <- Qgt_alt. unfold Qminus. rewrite <- Qlt_minus_iff.
  rewrite Qlt_alt. destruct (p ?= q)%Q; split; congruence.
Qed.

Lemma descending_trans (a b c : ScoreEntry) :
  descending a b -> descending b c -> descending a c.
Proof. unfold descending. intros H1 H2. exact (num_leb_trans _ _ _ H2 H1). Qed.

Lemma not_Gt_descending (x y : ScoreEntry) :
  SortCompare x y <> Gt -> descending x y.
Proof.
  intros H. unfold descending, num_leb.
  destruct (num_ltb (shrimps x) (shrimps y)) eqn:E; trivial.
  apply SortCompare_Gt in E. contradiction.
Qed.

Lemma Gt_descending (x y : ScoreEntry) :
  SortCompare x y = Gt -> descending y x.
Proof.
  intros H. apply SortCompare_Gt in H. now apply num_ltb_leb.
Qed.

(** ** The sort: a sorted, stable rearrangement *)

Lemma insert_perm (x : ScoreEntry) (l : Leaderboard) :
  Permutation (insert x l) (x :: l).
Proof.
  induction l as [|y l IH]; simpl.
  - apply Permutation_refl.
  - destruct (SortCompare x y); try apply Permutation_refl.
    apply perm_trans with (y :: x :: l).
    + now apply perm_skip.
    + apply perm_swap.
Qed.

Lemma sort_perm (l : Leaderboard) : Permutation (sort l) l.
Proof.
  induction l as [|x l IH]; simpl.
  - apply perm_nil.
  - apply perm_trans with (x :: sort l).
    + apply insert_perm.
    + now apply perm_skip.
Qed.

Lemma sort_length (l : Leaderboard) : List.length (sort l) = List.length l.
Proof. apply Permutation_length, sort_perm. Qed.

Lemma insert_sorted (x : ScoreEntry) (l : Leaderboard) :
  sorted_desc l -> sorted_desc (insert x l).
Proof.
  unfold sorted_desc.
  induction l as [|y l IH]; simpl; intros Hs.
  - constructor; constructor.
  - inversion Hs as [|? ? Hl Hy]; subst.
    destruct (SortCompare x y) eqn:E.
    + constructor; trivial. constructor.
      * apply not_Gt_descending. congruence.
      * eapply Forall_impl; [|exact Hy]. intros z Hz.
        apply descending_trans with y; trivial.
        apply not_Gt_descending. congruence.
    + constructor; trivial. constructor.
      * apply not_Gt_descending. congruence.
      * eapply Forall_impl; [|exact Hy]. intros z Hz.
        apply descending_trans with y; trivial.
        apply not_Gt_descending. congruence.
    + constructor.
      * now apply IH.
      * apply Permutation_Forall with (x :: l).
        -- apply Permutation_sym, insert_perm.
        -- constructor; trivial. now apply Gt_descending.
Qed.

Lemma sort_sorted (l : Leaderboard) : sorted_desc (sort l).
Proof.
  induction l as [|x l IH]; simpl.
  - constructor.
  - now apply insert_sorted.
Qed.

Lemma Forall_firstn_keep {A} (P : A -> Prop) (n : nat) (l : list A) :
  Forall P l -> Forall P (firstn n l).
Proof.
  revert l. induction n as [|n IH]; intros [|a l] H; simpl; try constructor.
  - now inversion H.
  - apply IH. now inversion H.
Qed.

Lemma sorted_firstn (n : nat) (l : Leaderboard) :
  sorted_desc l -> sorted_desc (firstn n l).
Proof.
  unfold sorted_desc. revert l.
  induction n as [|n IH]; intros [|a l] H; simpl; try constructor.
  - apply IH. now inversion H.
  - apply Forall_firstn_keep. now inversion H.
Qed.

(** An entry is never moved across one with the same shrimps. *)
Lemma filter_insert (k : number) (x : ScoreEntry) (l : Leaderboard) :
  filter (with_shrimps k) (insert x l) = filter (with_shrimps k) (x :: l).
Proof.
  induction l as [|y l IH]; trivial.
  cbn [insert]. destruct (SortCompare x y) eqn:E; trivial.
  apply SortCompare_Gt in E.
  cbn [filter]. rewrite IH. cbn [filter].
  destruct (with_shrimps k x) eqn:Ex, (with_shrimps k y) eqn:Ey; trivial.
  exfalso. unfold with_shrimps in Ex, Ey.
  rewrite num_eqb_sym in Ex.
  pose proof (num_eqb_trans _ _ _ Ey Ex) as H.
  unfold num_eqb, num_leb in H. rewrite E in H. simpl in H. discriminate.
Qed.

Lemma filter_sort (k : number) (l : Leaderboard) :
  filter (with_shrimps k) (sort l) = filter (with_shrimps k) l.
Proof.
  induction l as [|x l IH]; trivial.
  cbn [sort]. rewrite filter_insert. cbn [filter]. now rewrite IH.
Qed.

Lemma filter_firstn_prefix {A} (p : A -> bool) (n : nat) (l : list A) :
  exists rest, filter p l = filter p (firstn n l) ++ rest.
Proof.
  exists (filter p (skipn n l)).
  rewrite <- filter_app. now rewrite firstn_skipn.
Qed.

(** Where an insertion lands in a list that already holds [e] with the
    entries of at least as many shrimps before it and the others behind. *)
Lemma insert_place (x e : ScoreEntry) (l2 l1 : Leaderboard) :
  Forall (fun y => descending y e) l1 ->
  Forall (fun y => num_ltb (shrimps y) (shrimps e) = true) l2 ->
  exists l1' l2',
    insert x (l1 ++ e :: l2) = l1' ++ e :: l2' /\
    Permutation (l1' ++ l2') (x :: l1 ++ l2) /\
    Forall (fun y => descending y e) l1' /\
    Forall (fun y => num_ltb (shrimps y) (shrimps e) = true) l2'.
Proof.
  intros H1 H2. induction l1 as [|y l1 IH].
  - cbn [app insert]. destruct (SortCompare x e) eqn:E.
    + exists [x], l2. repeat split; trivial.
      constructor; trivial. apply not_Gt_descending. congruence.
    + exists [x], l2. repeat split; trivial.
      constructor; trivial. apply not_Gt_descending. congruence.
    + exists [], (insert x l2). repeat split; trivial.
      * apply insert_perm.
      * apply Permutation_Forall with (x :: l2).
        -- apply Permutation_sym, insert_perm.
        -- constructor; trivial. now apply SortCompare_Gt.
  - inversion H1 as [|? ? Hy Hl]; subst.
    cbn [app insert]. destruct (SortCompare x y) eqn:E.
    + exists (x :: y :: l1), l2. repeat split; trivial.
      constructor; trivial. apply descending_trans with y; trivial.
      apply not_Gt_descending. congruence.
    + exists (x :: y :: l1), l2. repeat split; trivial.
      constructor; trivial. apply descending_trans with y; trivial.
      apply not_Gt_descending. congruence.
    + destruct (IH Hl) as (l1' & l2' & Hi & Hp & Hf1 & Hf2).
      exists (y :: l1'), l2'. repeat split; trivial.
      * cbn [app]. now rewrite Hi.
      * cbn [app]. apply perm_trans with (y :: x :: l1 ++ l2).
        -- now apply perm_skip.
        -- apply perm_swap.
      * now constructor.
Qed.

Lemma sort_push_place (L : Leaderboard) (e : ScoreEntry) :
  exists l1 l2,
    sort (push L e) = l1 ++ e :: l2 /\
    Permutation (l1 ++ l2) L /\
    Forall (fun y => descending y e) l1 /\
    Forall (fun y => num_ltb (shrimps y) (shrimps e) = true) l2.
Proof.
  unfold push. induction L as [|x L IH].
  - exists [], []. repeat split; trivial.
  - destruct IH as (l1 & l2 & Hs & Hp & Hf1 & Hf2).
    cbn [app sort]. rewrite Hs.
    destruct (insert_place x e l2 l1 Hf1 Hf2) as (l1' & l2' & Hi & Hp' & Hf1' & Hf2').
    exists l1', l2'. repeat split; trivial.
    apply perm_trans with (x :: l1 ++ l2); trivial.
    now apply perm_skip.
Qed.

(** Two sorted lists that hold, for every number of shrimps, the same
    entries in the same order are equal: with a consistent comparator a
    stable sort has one possible result. *)
Lemma sorted_head_max (x y : ScoreEntry) (l : Leaderboard) :
  sorted_desc (y :: l) -> In x (y :: l) -> descending y x.
Proof.
  intros Hs [<- | Hin].
  - apply num_leb_refl.
  - inversion Hs as [|? ? _ Hy]; subst.
    rewrite Forall_forall in Hy. now apply Hy.
Qed.

Lemma with_shrimps_self (x : ScoreEntry) : with_shrimps (shrimps x) x = true.
Proof. apply num_eqb_refl. Qed.

Lemma sorted_stable_eq (l1 l2 : Leaderboard) :
  sorted_desc l1 -> sorted_desc l2 ->
  (forall k, filter (with_shrimps k) l1 = filter (with_shrimps k) l2) ->
  l1 = l2.
Proof.
  revert l2. induction l1 as [|x l1 IH]; intros [|y l2] S1 S2 H; trivial.
  - specialize (H (shrimps y)). cbn [filter] in H.
    rewrite with_shrimps_self in H. discriminate.
  - specialize (H (shrimps x)). cbn [filter] in H.
    rewrite with_shrimps_self in H. discriminate.
  - assert (Hxy : descending y x).
    { apply sorted_head_max with l2; trivial.
      apply (proj1 (filter_In (with_shrimps (shrimps x)) x (y :: l2))).
      rewrite <- H. apply filter_In. split; [now left | apply with_shrimps_self]. }
    assert (Hyx : descending x y).
    { apply sorted_head_max with l1; trivial.
      apply (proj1 (filter_In (with_shrimps (shrimps y)) y (x :: l1))).
      rewrite H. apply filter_In. split; [now left | apply with_shrimps_self]. }
    assert (E : x = y).
    { pose proof (H (shrimps x)) as Hk. cbn [filter] in Hk.
      rewrite with_shrimps_self in Hk.
      assert (Ey : with_shrimps (shrimps x) y = true).
      { unfold with_shrimps, num_eqb. unfold descending in Hxy, Hyx.
        now rewrite Hxy, Hyx. }
      rewrite Ey in Hk. congruence. }
    subst y. f_equal. apply IH.
    + now inversion S1.
    + now inversion S2.
    + intros k. specialize (H k). cbn [filter] in H.
      destruct (with_shrimps k x); congruence.
Qed.

Lemma stable_sort_unique (l l' : Leaderboard) :
  sorted_desc l' ->
  (forall k, filter (with_shrimps k) l' = filter (with_shrimps k) l) ->
  l' = sort l.
Proof.
  intros Hs Hf. apply sorted_stable_eq; trivial.
  - apply sort_sorted.
  - intros k. now rewrite filter_sort.
Qed.

(** ** The merge *)

Lemma merge_prefix (L : Leaderboard) (e : ScoreEntry) :
  sort (push L e) = merge L e ++ skipn 10 (sort (push L e)).
Proof. unfold merge, slice_0_10. now rewrite firstn_skipn. Qed.

Lemma push_length (L : Leaderboard) (e : ScoreEntry) :
  List.length (push L e) = S (List.length L).
Proof. unfold push. rewrite length_app. simpl. lia. Qed.

(** C2: for a leaderboard of at most ten entries and any entry, the merged
    leaderboard has at most ten entries; it is the first ten of the sorted
    sequence, what follows them being dropped. *)
Theorem merge_length_le_10 (L : Leaderboard) (e : ScoreEntry) :
  List.length L <= 10 ->
  List.length (merge L e) <= 10 /\
  exists discarded,
    sort (push L e) = merge L e ++ discarded /\
    List.length discarded = List.length L + 1 - 10.
Proof.
  intros HL. split.
  - unfold merge, slice_0_10. rewrite length_firstn. lia.
  - exists (skipn 10 (sort (push L e))). split.
    + apply merge_prefix.
    + rewrite length_skipn, sort_length, push_length. lia.
Qed.

(** C3: for every leaderboard and every entry, the merged leaderboard is
    sorted in descending order of [shrimps]. *)
Theorem merge_sorted (L : Leaderboard) (e : ScoreEntry) :
  sorted_desc (merge L e).
Proof.
  unfold merge, slice_0_10. apply sorted_firstn, sort_sorted.
Qed.

(** C4: when the leaderboard has fewer than ten entries, the incoming
    entry is in the merged leaderboard. *)
Theorem merge_keeps_incoming (L : Leaderboard) (e : ScoreEntry) :
  List.length L < 10 -> In e (merge L e).
Proof.
  intros HL. unfold merge, slice_0_10.
  rewrite firstn_all2.
  - apply Permutation_in with (push L e).
    + apply Permutation_sym, sort_perm.
    + unfold push. apply in_or_app. right. now left.
  - rewrite sort_length, push_length. lia.
Qed.

(** C10: the sort is stable. For every number of shrimps, the entries of
    the merged leaderboard that have it stand in the order they had in the
    array after the push (a prefix of them, because of the cut at ten); and
    the incoming entry lands behind every entry of the leaderboard that has
    as many shrimps as it, or more, and before the entries that have
    fewer. *)
Theorem merge_stable (L : Leaderboard) (e : ScoreEntry) :
  (forall k, exists rest,
      filter (with_shrimps k) (push L e)
      = filter (with_shrimps k) (merge L e) ++ rest) /\
  (exists before after,
      sort (push L e) = before ++ e :: after /\
      merge L e = firstn 10 (before ++ e :: after) /\
      Permutation (before ++ after) L /\
      Forall (fun x => descending x e) before /\
      Forall (fun x => num_ltb (shrimps x) (shrimps e) = true) after /\
      (forall x, In x L -> with_shrimps (shrimps e) x = true -> In x before)).
Proof.
  split.
  - intros k. rewrite <- (filter_sort k (push L e)).
    apply filter_firstn_prefix.
  - destruct (sort_push_place L e) as (l1 & l2 & Hs & Hp & Hf1 & Hf2).
    exists l1, l2. repeat split; trivial.
    + unfold merge, slice_0_10. now rewrite Hs.
    + intros x Hx Hk.
      apply (Permutation_in _ (Permutation_sym Hp)) in Hx.
      apply in_app_or in Hx. destruct Hx as [Hx | Hx]; trivial.
      exfalso. rewrite Forall_forall in Hf2. specialize (Hf2 x Hx).
      unfold with_shrimps, num_eqb, num_leb in Hk.
      rewrite Hf2 in Hk. rewrite andb_false_r in Hk. discriminate.
Qed.

Lemma of_nat_gt_20 (n : nat) : num_ltb (Fin 20) (of_nat n) = Nat.ltb 20 n.
Proof.
  unfold of_nat, num_ltb, Qcompare. cbn [Qnum Qden inject_Z].
  destruct (Nat.ltb_spec 20 n) as [H | H].
  - replace (20 * 1 ?= Z.of_nat n * 1)%Z with Lt; trivial.
    symmetry. apply Z.compare_lt_iff. lia.
  - destruct (20 * 1 ?= Z.of_nat n * 1)%Z eqn:E; trivial.
    apply (proj1 (Z.compare_lt_iff _ _)) in E. lia.
Qed.

Lemma string_nonempty (s : string) :
  negb (String.eqb s "") = (1 <=? String.length s)%nat.
Proof. destruct s; reflexivity. Qed.

Section HandlerProperties.

Variable TextToNumber : value -> option number.

(** After the check, [shrimps] is a number. *)
Lemma invalid_number (name shrimps : value) :
  invalid TextToNumber name shrimps = false -> exists n, shrimps = VNumber n.
Proof.
  unfold invalid. intros H.
  destruct shrimps; try (now rewrite orb_true_r in H; discriminate).
  all: try (cbn [typeof_not_number] in H;
            rewrite orb_true_r in H; cbn [orb] in H; discriminate).
  now exists n.
Qed.

(** On a text name the check agrees with the rules of the specification. *)
Lemma invalid_text (s : string) (shrimps : value) :
  invalid TextToNumber (VString s) shrimps
  = negb (match shrimps with
          | VNumber n => (1 <=? String.length s)%nat && (String.length s <=? 20)%nat
                         && num_leb (Fin 1) n
          | _ => false
          end).
Proof.
  unfold invalid. cbn [truthy get_prop String.eqb Ascii.eqb Bool.eqb].
  rewrite string_nonempty.
  unfold js_gt, js_lt. cbn [ToNumber]. rewrite of_nat_gt_20.
  destruct shrimps;
    try (cbn [typeof_not_number]; rewrite orb_true_r; reflexivity).
  cbn [typeof_not_number ToNumber]. unfold num_leb.
  rewrite (Nat.ltb_antisym (String.length s) 20).
  destruct (1 <=? String.length s)%nat, (num_ltb n (Fin 1)),
    (String.length s <=? 20)%nat; reflexivity.
Qed.

Lemma invalid_falsy (name shrimps : value) :
  truthy name = false -> invalid TextToNumber name shrimps = true.
Proof. unfold invalid. now intros ->. Qed.

Ltac run_handler :=
  cbv beta iota delta
    [handler destructure bind pure try_catch return_ throw emit console_error
     fetch_get fetch_put response_json as_number negb].

Lemma handler_post_fields (now : string) (store : Store) (req : Request) :
  method req = "POST" -> body req <> VUndefined -> body req <> VNull ->
  handler TextToNumber now store req
  = handler TextToNumber now store
      (post (VObject [("name", get_prop (body req) "name");
                      ("shrimps", get_prop (body req) "shrimps")])).
Proof.
  intros Hm Hu Hn. unfold handler, post. cbn [method body]. rewrite Hm.
  destruct (body req); try contradiction; reflexivity.
Qed.

(** The run on a request that passes the check, by what the store does. *)
Lemma handler_read_failed (now : string) (store : Store) (req : Request)
    (name : value) (n : number) (r : Response) :
  valid_post TextToNumber req name n ->
  get_reply store = Some r -> ok r = false ->
  handler TextToNumber now store req
  = (Returned reply_500_read,
     [FetchGet; ConsoleError "Failed to fetch existing leaderboard:" (text r)]).
Proof.
  intros (Hm & Hu & Hn & <- & Hs & Hi) Hg Hok.
  rewrite handler_post_fields by assumption. rewrite Hs in *.
  unfold post. run_handler. cbn [method body get_prop lookup String.eqb Ascii.eqb Bool.eqb].
  rewrite Hi, Hg, Hok. reflexivity.
Qed.

Lemma handler_read_ok (now : string) (store : Store) (req : Request)
    (name : value) (n : number) (r : Response) (d : Document) :
  valid_post TextToNumber req name n ->
  get_reply store = Some r -> ok r = true -> json r = Some d ->
  let written := merge (current_leaders store) (mkScore name n now) in
  handler TextToNumber now store req
  = match put_reply store written with
    | Some p =>
        if ok p then (Returned reply_200, [FetchGet; FetchPut written])
        else (Returned (mkReply 500 (Error "Failed to update leaderboards.")),
              [FetchGet; FetchPut written;
               ConsoleError "Failed to update leaderboard:" (text p)])
    | None =>
        (Returned (mkReply 500 (Error "An unexpected error occurred.")),
         [FetchGet; FetchPut written;
          ConsoleError "Serverless function error:" "FetchError"])
    end.
Proof.
  intros (Hm & Hu & Hn & <- & Hs & Hi) Hg Hok Hj written.
  rewrite handler_post_fields by assumption. rewrite Hs in *.
  unfold post. run_handler. cbn [method body get_prop lookup String.eqb Ascii.eqb Bool.eqb].
  rewrite Hi, Hg, Hok, Hj.
  assert (Hw : merge match leaders (record d) with Some l => l | None => [] end
                 (mkScore (get_prop (body req) "name") n now) = written).
  { unfold written, current_leaders. now rewrite Hg, Hj. }
  rewrite Hw. destruct (put_reply store written) as [p|]; [|reflexivity].
  destruct (ok p); reflexivity.
Qed.

Lemma handler_read_threw (now : string) (store : Store) (req : Request)
    (name : value) (n : number) :
  valid_post TextToNumber req name n ->
  get_reply store = None \/
  (exists r, get_reply store = Some r /\ ok r = true /\ json r = None) ->
  exists err,
    handler TextToNumber now store req
    = (Returned (mkReply 500 (Error "An unexpected error occurred.")),
       [FetchGet; ConsoleError "Serverless function error:" err]).
Proof.
  intros (Hm & Hu & Hn & <- & Hs & Hi) Hg.
  rewrite handler_post_fields by assumption. rewrite Hs in *.
  unfold post. run_handler. cbn [method body get_prop lookup String.eqb Ascii.eqb Bool.eqb].
  rewrite Hi. destruct Hg as [Hg | (r & Hg & Hok & Hj)].
  - rewrite Hg. now exists "FetchError".
  - rewrite Hg, Hok, Hj. now exists "SyntaxError".
Qed.

Lemma handler_rejects (now : string) (store : Store) (req : Request) :
  method req = "POST" -> body req <> VUndefined -> body req <> VNull ->
  invalid TextToNumber (get_prop (body req) "name") (get_prop (body req) "shrimps")
  = true ->
  handler TextToNumber now store req = (Returned reply_400, []).
Proof.
  intros Hm Hu Hn Hi.
  rewrite handler_post_fields by assumption.
  unfold post. run_handler. cbn [method body get_prop lookup String.eqb Ascii.eqb Bool.eqb].
  now rewrite Hi.
Qed.

(** A body that is undefined or null: line 20 throws, the catch answers
    500, and the store is not called. *)
Lemma handler_no_body (now : string) (store : Store) (b : value) :
  b = VUndefined \/ b = VNull ->
  handler TextToNumber now store (post b)
  = (Returned (mkReply 500 (Error "An unexpected error occurred.")),
     [ConsoleError "Serverless function error:" "TypeError"]).
Proof. intros [-> | ->]; reflexivity. Qed.

(** C1, as the code has it: for a payload that is not undefined or null
    and whose name is a text or a value that [!name] rejects, the validator
    accepts exactly when the name is a text of 1 to 20 characters and
    shrimps is a number not less than 1; and every such payload that breaks
    one of these rules is answered 400 'Invalid score data.' without a call
    to the store. *)
Theorem validator_on_text_names (now : string) (store : Store) (payload : value) :
  payload <> VUndefined -> payload <> VNull ->
  text_or_falsy (get_prop payload "name") ->
  accepts TextToNumber payload = spec_valid payload /\
  (spec_valid payload = false ->
   handler TextToNumber now store (post payload) = (Returned reply_400, [])).
Proof.
  intros Hu Hn Ht.
  assert (Ha : accepts TextToNumber payload
               = negb (invalid TextToNumber (get_prop payload "name")
                         (get_prop payload "shrimps"))).
  { destruct payload; trivial; contradiction. }
  assert (He : accepts TextToNumber payload = spec_valid payload).
  { rewrite Ha. unfold spec_valid. destruct Ht as [[s Hs] | Hf].
    - rewrite Hs, invalid_text, negb_involutive.
      destruct (get_prop payload "shrimps"); reflexivity.
    - rewrite (invalid_falsy _ _ Hf). cbn [negb].
      destruct (get_prop payload "name") as [| | | |s| |]; trivial.
      cbn [truthy] in Hf. rewrite string_nonempty in Hf. rewrite Hf.
      destruct (get_prop payload "shrimps"); reflexivity. }
  split; trivial.
  intros Hv. apply handler_rejects; trivial.
  cbn [post body]. rewrite <- He, Ha in Hv.
  now apply negb_false_iff in Hv.
Qed.

(** C5: a request whose method is not POST is answered 405 at once; the
    run has no effect at all, so neither the read nor the write of the
    store is called. *)
Theorem non_post_405 (now : string) (store : Store) (req : Request) :
  method req <> "POST" ->
  handler TextToNumber now store req = (Returned reply_405, []).
Proof.
  intros H. unfold handler.
  destruct (String.eqb_spec (method req) "POST") as [E | E];
    [contradiction | reflexivity].
Qed.


(** C7: for a POST request with a valid payload, when the read of the
    store comes back with a non-success status the answer is 500 'Failed
    to retrieve current leaderboard.' and the write is not attempted: the
    only call to the store is the read. *)
Theorem read_failure_500 (now : string) (store : Store) (req : Request)
    (name : value) (n : number) (r : Response) :
  valid_post TextToNumber req name n ->
  get_reply store = Some r -> ok r = false ->
  fst (handler TextToNumber now store req) = Returned reply_500_read /\
  snd (handler TextToNumber now store req)
  = [FetchGet; ConsoleError "Failed to fetch existing leaderboard:" (text r)] /\
  forall l, ~ In (FetchPut l) (snd (handler TextToNumber now store req)).
Proof.
  intros Hv Hg Hok.
  rewrite (handler_read_failed now store req name n r Hv Hg Hok).
  repeat split. intros l [H | [H | []]]; discriminate.
Qed.

(** Every run on a valid payload starts with the read of the store, and
    writes, if it does, the merge of what was read with the new entry. *)
Lemma handler_valid_trace (now : string) (store : Store) (req : Request)
    (name : value) (n : number) :
  valid_post TextToNumber req name n ->
  exists rest,
    snd (handler TextToNumber now store req) = FetchGet :: rest /\
    forall l, In (FetchPut l) rest ->
              l = merge (current_leaders store) (mkScore name n now).
Proof.
  intros Hv. destruct (get_reply store) as [r|] eqn:Hg.
  - destruct (ok r) eqn:Hok.
    + destruct (json r) as [d|] eqn:Hj.
      * pose proof (handler_read_ok now store req name n r d Hv Hg Hok Hj) as H.
        cbv zeta in H. rewrite H.
        destruct (put_reply store _) as [p|]; [destruct (ok p)|];
          (eexists; split; [reflexivity|]);
          intros l Hin; cbn [In] in Hin;
          repeat (destruct Hin as [Hin | Hin]; try discriminate; try contradiction);
          congruence.
      * destruct (handler_read_threw now store req name n Hv) as [err H].
        { right. now exists r. }
        rewrite H. eexists; split; [reflexivity|].
        intros l [Hin | []]. discriminate.
    + rewrite (handler_read_failed now store req name n r Hv Hg Hok).
      eexists; split; [reflexivity|]. intros l [Hin | []]. discriminate.
  - destruct (handler_read_threw now store req name n Hv) as [err H].
    { now left. }
    rewrite H. eexists; split; [reflexivity|].
    intros l [Hin | []]. discriminate.
Qed.

(** The validator accepts a payload exactly when the run goes on to the
    store. *)
Lemma accepts_iff_store_read (now : string) (store : Store) (payload : value) :
  accepts TextToNumber payload = true <->
  In FetchGet (snd (handler TextToNumber now store (post payload))).
Proof.
  destruct (invalid TextToNumber (get_prop payload "name")
              (get_prop payload "shrimps")) eqn:Hi.
  - assert (Ha : accepts TextToNumber payload = false).
    { unfold accepts. rewrite Hi. now destruct payload. }
    rewrite Ha. split; [discriminate|]. intros Hin. exfalso.
    destruct payload;
      try (rewrite handler_no_body in Hin by (now left + now right);
           destruct Hin as [Hin | []]; discriminate);
      rewrite handler_rejects in Hin by (trivial; discriminate);
      destruct Hin.
  - destruct (invalid_number _ _ Hi) as [n Hn].
    assert (Hp : payload <> VUndefined /\ payload <> VNull).
    { split; intros ->; cbn in Hi; discriminate. }
    assert (Ha : accepts TextToNumber payload = true).
    { unfold accepts. rewrite Hi. destruct payload; trivial; now destruct Hp. }
    rewrite Ha. split; trivial. intros _.
    destruct (handler_valid_trace now store (post payload)
                (get_prop payload "name") n) as (rest & Ht & _).
    { repeat split; try tauto. now rewrite <- Hn. }
    rewrite Ht. now left.
Qed.

(** C8: after a successful read whose document has no [leaders] field the
    current leaderboard is taken to be empty, and the run goes on: it
    writes the leaderboard made of the new entry alone, and answers 200
    when that write succeeds. *)
Theorem missing_leaders_empty (now : string) (store : Store) (req : Request)
    (name : value) (n : number) (r : Response) (d : Document) :
  valid_post TextToNumber req name n ->
  get_reply store = Some r -> ok r = true -> json r = Some d ->
  leaders (record d) = None ->
  current_leaders store = [] /\
  (exists log,
      snd (handler TextToNumber now store req)
      = FetchGet :: FetchPut [mkScore name n now] :: log) /\
  (forall p, put_reply store [mkScore name n now] = Some p -> ok p = true ->
             handler TextToNumber now store req
             = (Returned reply_200, [FetchGet; FetchPut [mkScore name n now]])).
Proof.
  intros Hv Hg Hok Hj Hl.
  assert (Hc : current_leaders store = []).
  { unfold current_leaders. now rewrite Hg, Hj, Hl. }
  pose proof (handler_read_ok now store req name n r d Hv Hg Hok Hj) as H.
  cbv zeta in H. rewrite Hc in H.
  change (merge [] (mkScore name n now)) with [mkScore name n now] in H.
  repeat split; trivial.
  - rewrite H. destruct (put_reply store _) as [p|]; [destruct (ok p)|];
      eexists; reflexivity.
  - intros p Hp Hokp. rewrite H, Hp, Hokp. reflexivity.
Qed.

(** C9: the handler reads [name] and [shrimps] of the body and nothing
    else, so two POST requests whose bodies agree on these two fields (and
    differ, say, by a [date] field) have the same run: same answer, same
    calls, same leaderboard written. What is written is the merge of the
    leaderboard read with an entry whose date is the server's [now], and it
    is written whenever the payload is valid and the read succeeds. *)
Theorem server_assigns_date (now : string) (store : Store)
    (props1 props2 : list (string * value)) :
  lookup "name" props1 = lookup "name" props2 ->
  lookup "shrimps" props1 = lookup "shrimps" props2 ->
  handler TextToNumber now store (post (VObject props1))
  = handler TextToNumber now store (post (VObject props2)) /\
  (forall l,
    In (FetchPut l) (snd (handler TextToNumber now store (post (VObject props1)))) ->
    exists n,
      get_prop (VObject props1) "shrimps" = VNumber n /\
      l = merge (current_leaders store)
            (mkScore (get_prop (VObject props1) "name") n now)) /\
  (forall n r d,
      valid_post TextToNumber (post (VObject props1))
        (get_prop (VObject props1) "name") n ->
      get_reply store = Some r -> ok r = true -> json r = Some d ->
      In (FetchPut (merge (current_leaders store)
                      (mkScore (get_prop (VObject props1) "name") n now)))
         (snd (handler TextToNumber now store (post (VObject props1))))).
Proof.
  intros Hname Hshrimps. split; [|split].
  - rewrite (handler_post_fields now store (post (VObject props1)));
      try (cbn [post method body]; trivial; discriminate).
    rewrite (handler_post_fields now store (post (VObject props2)));
      try (cbn [post method body]; trivial; discriminate).
    cbn [post body get_prop]. now rewrite Hname, Hshrimps.
  - intros l Hin.
    destruct (invalid TextToNumber (get_prop (VObject props1) "name")
                (get_prop (VObject props1) "shrimps")) eqn:Hi.
    + rewrite handler_rejects in Hin by (trivial; discriminate). destruct Hin.
    + destruct (invalid_number _ _ Hi) as [n Hn]. exists n. split; trivial.
      destruct (handler_valid_trace now store (post (VObject props1))
                  (get_prop (VObject props1) "name") n) as (rest & Ht & Hput).
      { repeat split; trivial; try discriminate. now rewrite <- Hn. }
      rewrite Ht in Hin. destruct Hin as [Hin | Hin]; [discriminate|].
      now apply Hput.
  - intros n r d Hv Hg Hok Hj.
    pose proof (handler_read_ok now store _ _ n r d Hv Hg Hok Hj) as H.
    cbv zeta in H. rewrite H.
    destruct (put_reply store _) as [p|]; [destruct (ok p)|];
      right; now left.
Qed.

(** The handler always answers: no run ends on an exception or without a
    reply. *)
Lemma handler_returns (now : string) (store : Store) (req : Request) :
  exists r t, handler TextToNumber now store req = (Returned r, t).
Proof.
  destruct (String.eqb_spec (method req) "POST") as [Hm | Hm].
  - assert (Hb : body req = VUndefined \/ body req = VNull \/
                 (body req <> VUndefined /\ body req <> VNull)).
    { destruct (body req); (now left) || (now right; left) ||
        (right; right; split; discriminate). }
    destruct Hb as [Hb | [Hb | [Hu Hn]]].
    + unfold handler. rewrite Hm, Hb. now eexists; eexists.
    + unfold handler. rewrite Hm, Hb. now eexists; eexists.
    + destruct (invalid TextToNumber (get_prop (body req) "name")
                  (get_prop (body req) "shrimps")) eqn:Hi.
      * rewrite handler_rejects by assumption. now eexists; eexists.
      * destruct (invalid_number _ _ Hi) as [n Hs].
        assert (Hv : valid_post TextToNumber req (get_prop (body req) "name") n).
        { repeat split; trivial. now rewrite <- Hs. }
        destruct (get_reply store) as [r|] eqn:Hg.
        -- destruct (ok r) eqn:Hok.
           ++ destruct (json r) as [d|] eqn:Hj.
              ** pose proof (handler_read_ok now store req _ n r d Hv Hg Hok Hj) as H.
                 cbv zeta in H. rewrite H.
                 destruct (put_reply store _) as [p|]; [destruct (ok p)|];
                   now eexists; eexists.
              ** destruct (handler_read_threw now store req _ n Hv) as [err H].
                 { right. now exists r. }
                 rewrite H. now eexists; eexists.
           ++ rewrite (handler_read_failed now store req _ n r Hv Hg Hok).
              now eexists; eexists.
        -- destruct (handler_read_threw now store req _ n Hv) as [err H].
           { now left. }
           rewrite H. now eexists; eexists.
  - unfold handler.
    destruct (String.eqb_spec (method req) "POST"); [contradiction|].
    now eexists; eexists.
Qed.

End HandlerProperties.


(** ** The properties at concrete requests *)

(** The validator on the payloads the specification lists. *)
Example validator_examples :
  accepts not_numeric (payload (VString "A") (VNumber (Fin 1))) = true /\
  accepts not_numeric
    (payload (VString "xxxxxxxxxxxxxxxxxxxx") (VNumber (Fin 999999))) = true /\
  accepts not_numeric (payload (VString "") (VNumber (Fin 5))) = false /\
  accepts not_numeric
    (payload (VString "xxxxxxxxxxxxxxxxxxxxx") (VNumber (Fin 5))) = false /\
  accepts not_numeric (payload (VString "A") (VNumber (Fin 0))) = false /\
  accepts not_numeric (payload (VString "A") (VNumber (Fin (inject_Z (-5))))) = false /\
  accepts not_numeric (payload (VString "A") (VString "12")) = false /\
  accepts not_numeric (VObject [("name", VString "A")]) = false /\
  accepts not_numeric (VObject [("shrimps", VNumber (Fin 5))]) = false /\
  accepts not_numeric (payload (VString "A") (VNumber (Fin (3 # 2)))) = true /\
  accepts not_numeric (payload (VString "A") (VNumber PosInf)) = true.
Proof. repeat split. Qed.

(** A full board whose lowest entry has 50 shrimps takes a 200: the new
    entry comes first, the size stays ten, the old lowest entry is gone. *)
Example merge_full_board :
  merge ten (score "Zed" 200 server_time)
  = score "Zed" 200 server_time :: firstn 9 ten.
Proof. reflexivity. Qed.

(** A full board drops an incoming entry that is below all ten. *)
Example merge_drops_low_entry :
  merge ten (score "low" 1 server_time) = ten.
Proof. reflexivity. Qed.

(** Three entries and a valid score make four, sorted; a tie goes behind
    the entry that was there. *)
Example merge_three :
  merge three (score "bob" 5 server_time)
  = [score "ann" 9 "d1"; score "cy" 5 "d2"; score "bob" 5 server_time;
     score "dee" 2 "d3"].
Proof. reflexivity. Qed.

Example handler_three :
  handler not_numeric server_time store_three (post bob_5)
  = (Returned reply_200,
     [FetchGet;
      FetchPut [score "ann" 9 "d1"; score "cy" 5 "d2";
                mkScore (VString "bob") (Fin 5) server_time; score "dee" 2 "d3"]]).
Proof. reflexivity. Qed.

(** C1 does not hold as worded: a payload whose name is the number 42 is
    accepted, whatever the coercion of texts, although its name is not a
    text; the run goes to the store and stores the entry. *)
Lemma validator_accepts_number_as_name :
  (forall tn, accepts tn name_42 = true) /\
  spec_valid name_42 = false /\
  (forall tn,
      handler tn server_time store_fresh (post name_42)
      = (Returned reply_200,
         [FetchGet; FetchPut [mkScore (VNumber (Fin 42)) (Fin 5) server_time]])).
Proof. repeat split. Qed.

Lemma validator_on_text_names_witness :
  empty_name_5 <> VUndefined /\ empty_name_5 <> VNull /\
  text_or_falsy (get_prop empty_name_5 "name") /\
  accepts not_numeric empty_name_5 = spec_valid empty_name_5 /\
  (spec_valid empty_name_5 = false ->
   handler not_numeric server_time store_fresh (post empty_name_5)
   = (Returned reply_400, [])).
Proof.
  split; [discriminate|]. split; [discriminate|].
  split; [left; exists ""; reflexivity|].
  apply (validator_on_text_names not_numeric server_time store_fresh empty_name_5);
    [discriminate | discriminate | left; exists ""; reflexivity].
Defined.

Lemma merge_length_le_10_witness :
  List.length three <= 10 /\
  List.length (merge three (score "bob" 5 server_time)) <= 10 /\
  exists discarded,
    sort (push three (score "bob" 5 server_time))
    = merge three (score "bob" 5 server_time) ++ discarded /\
    List.length discarded = List.length three + 1 - 10.
Proof.
  split; [simpl; lia|].
  apply (merge_length_le_10 three (score "bob" 5 server_time)). simpl. lia.
Defined.

Lemma merge_keeps_incoming_witness :
  List.length three < 10 /\
  In (score "bob" 5 server_time) (merge three (score "bob" 5 server_time)).
Proof.
  split; [simpl; lia|].
  apply (merge_keeps_incoming three (score "bob" 5 server_time)). simpl. lia.
Defined.

Lemma non_post_405_witness :
  method (mkRequest "GET" bob_5) <> "POST" /\
  handler not_numeric server_time store_fresh (mkRequest "GET" bob_5)
  = (Returned reply_405, []).
Proof.
  split; [discriminate|].
  apply (non_post_405 not_numeric server_time store_fresh (mkRequest "GET" bob_5)).
  discriminate.
Defined.



Lemma valid_post_bob : valid_post not_numeric (post bob_5) (VString "bob") (Fin 5).
Proof. repeat split; discriminate. Defined.

Lemma read_failure_500_witness :
  valid_post not_numeric (post bob_5) (VString "bob") (Fin 5) /\
  ok (mkResponse false "Bin not found" None) = false /\
  fst (handler not_numeric server_time store_refusing (post bob_5))
  = Returned reply_500_read /\
  snd (handler not_numeric server_time store_refusing (post bob_5))
  = [FetchGet; ConsoleError "Failed to fetch existing leaderboard:" "Bin not found"] /\
  forall l,
    ~ In (FetchPut l) (snd (handler not_numeric server_time store_refusing (post bob_5))).
Proof.
  split; [exact valid_post_bob|]. split; [reflexivity|].
  apply (read_failure_500 not_numeric server_time store_refusing (post bob_5)
           (VString "bob") (Fin 5) (mkResponse false "Bin not found" None));
    [exact valid_post_bob | reflexivity | reflexivity].
Defined.

Lemma missing_leaders_empty_witness :
  valid_post not_numeric (post bob_5) (VString "bob") (Fin 5) /\
  leaders (record (mkDocument (mkBin None))) = None /\
  current_leaders store_fresh = [] /\
  (exists log,
      snd (handler not_numeric server_time store_fresh (post bob_5))
      = FetchGet :: FetchPut [mkScore (VString "bob") (Fin 5) server_time] :: log) /\
  (forall p,
      put_reply store_fresh [mkScore (VString "bob") (Fin 5) server_time] = Some p ->
      ok p = true ->
      handler not_numeric server_time store_fresh (post bob_5)
      = (Returned reply_200,
         [FetchGet; FetchPut [mkScore (VString "bob") (Fin 5) server_time]])).
Proof.
  split; [exact valid_post_bob|]. split; [reflexivity|].
  apply (missing_leaders_empty not_numeric server_time store_fresh (post bob_5)
           (VString "bob") (Fin 5)
           (mkResponse true "" (Some (mkDocument (mkBin None))))
           (mkDocument (mkBin None)));
    [exact valid_post_bob | reflexivity | reflexivity | reflexivity | reflexivity].
Defined.

Lemma server_assigns_date_witness :
  lookup "name" bob_5_backdated = lookup "name" bob_5_plain /\
  lookup "shrimps" bob_5_backdated = lookup "shrimps" bob_5_plain /\
  handler not_numeric server_time store_three (post (VObject bob_5_backdated))
  = handler not_numeric server_time store_three (post (VObject bob_5_plain)) /\
  (forall l,
    In (FetchPut l)
       (snd (handler not_numeric server_time store_three (post (VObject bob_5_backdated)))) ->
    exists n,
      get_prop (VObject bob_5_backdated) "shrimps" = VNumber n /\
      l = merge (current_leaders store_three)
            (mkScore (get_prop (VObject bob_5_backdated) "name") n server_time)).
Proof.
  split; [reflexivity|]. split; [reflexivity|].
  destruct (server_assigns_date not_numeric server_time store_three
              bob_5_backdated bob_5_plain) as (Hsame & Hput & _);
    [reflexivity | reflexivity |].
  split; [exact Hsame | exact Hput].
Defined.

(** * Further properties *)

(** ** The comparator *)

Lemma Qcompare_minus_0 (p q : Q) : (p - q ?= 0)%Q = (p ?= q)%Q.
Proof.
  unfold Qcompare, Qminus, Qplus, Qopp. cbn [Qnum Qden].
  rewrite Z.mul_1_r. cbn [Z.mul].
  rewrite (Z.compare_sub (Qnum p * Z.pos (Qden q)) (Qnum q * Z.pos (Qden p))).
  f_equal. lia.
Qed.

(** X1: [(a, b) => b.shrimps - a.shrimps] is a consistent comparator:
    swapping the arguments flips the sign, and the result counts as zero
    exactly when the two entries have the same shrimps. *)
Theorem SortCompare_consistent (x y : ScoreEntry) :
  SortCompare y x = CompOpp (SortCompare x y) /\
  (SortCompare x y = Eq <-> num_eqb (shrimps x) (shrimps y) = true).
Proof.
  assert (A : forall a b, SortCompare b a = CompOpp (SortCompare a b)).
  { intros a b. unfold SortCompare, comparefn.
    destruct (shrimps a) as [|p|], (shrimps b) as [|q|]; trivial.
    cbn [num_sub]. rewrite !Qcompare_minus_0. symmetry. apply Qcompare_antisym. }
  split; [apply A|].
  unfold num_eqb, num_leb.
  pose proof (SortCompare_Gt x y) as Hxy.
  pose proof (SortCompare_Gt y x) as Hyx.
  rewrite (A x y) in Hyx.
  destruct (SortCompare x y); cbn [CompOpp] in Hyx.
  - destruct (num_ltb (shrimps x) (shrimps y)); [now destruct Hxy as [_ H]; discriminate H|].
    destruct (num_ltb (shrimps y) (shrimps x)); [now destruct Hyx as [_ H]; discriminate H|].
    now split.
  - rewrite (proj1 Hyx eq_refl). cbn. split; discriminate.
  - rewrite (proj1 Hxy eq_refl). cbn. rewrite andb_false_r. split; discriminate.
Qed.

(** ** The merge: size, content, order *)

Lemma sorted_app_cross (l1 l2 : Leaderboard) :
  sorted_desc (l1 ++ l2) ->
  Forall (fun k => Forall (fun d => descending k d) l2) l1.
Proof.
  unfold sorted_desc. induction l1 as [|a l1 IH]; cbn [app]; intros H.
  - constructor.
  - inversion H as [|? ? Hs Ha]; subst. constructor.
    + apply Forall_app in Ha. tauto.
    + now apply IH.
Qed.

Lemma filter_length_perm {A} (p : A -> bool) (l l' : list A) :
  Permutation l l' -> List.length (filter p l) = List.length (filter p l').
Proof.
  induction 1 as [|a l l' _ IH|a b l|l l' l'' _ IH1 _ IH2]; cbn [filter]; trivial.
  - destruct (p a); cbn [List.length]; now rewrite IH.
  - destruct (p a), (p b); reflexivity.
  - now rewrite IH1.
Qed.

Lemma insert_below (x e : ScoreEntry) (l : Leaderboard) :
  descending x e ->
  Forall (fun y => num_ltb (shrimps y) (shrimps e) = true) l ->
  insert x l = x :: l.
Proof.
  intros Hx Hl. destruct l as [|y l]; trivial.
  cbn [insert]. destruct (SortCompare x y) eqn:E; trivial.
  exfalso. apply SortCompare_Gt in E.
  inversion Hl as [|? ? Hy _]; subst.
  pose proof (num_leb_trans _ _ _ Hx (num_ltb_leb _ _ E)) as H.
  unfold num_leb in H. rewrite Hy in H. discriminate.
Qed.

(** The place of an insertion, with and without [e] in the list. *)
Lemma insert_place_both (x e : ScoreEntry) (l2 l1 : Leaderboard) :
  Forall (fun y => descending y e) l1 ->
  Forall (fun y => num_ltb (shrimps y) (shrimps e) = true) l2 ->
  exists l1' l2',
    insert x (l1 ++ e :: l2) = l1' ++ e :: l2' /\
    insert x (l1 ++ l2) = l1' ++ l2' /\
    Forall (fun y => descending y e) l1' /\
    Forall (fun y => num_ltb (shrimps y) (shrimps e) = true) l2'.
Proof.
  intros H1 H2. induction l1 as [|y l1 IH].
  - cbn [app insert]. destruct (SortCompare x e) eqn:E.
    + assert (Hx : descending x e) by (apply not_Gt_descending; congruence).
      exists [x], l2. repeat split; trivial.
      * now apply insert_below with e.
      * now constructor.
    + assert (Hx : descending x e) by (apply not_Gt_descending; congruence).
      exists [x], l2. repeat split; trivial.
      * now apply insert_below with e.
      * now constructor.
    + exists [], (insert x l2). repeat split; trivial.
      apply Permutation_Forall with (x :: l2).
      * apply Permutation_sym, insert_perm.
      * constructor; trivial. now apply SortCompare_Gt.
  - inversion H1 as [|? ? Hy Hl]; subst.
    cbn [app insert]. destruct (SortCompare x y) eqn:E.
    + exists (x :: y :: l1), l2. repeat split; trivial.
      constructor; trivial. apply descending_trans with y; trivial.
      apply not_Gt_descending. congruence.
    + exists (x :: y :: l1), l2. repeat split; trivial.
      constructor; trivial. apply descending_trans with y; trivial.
      apply not_Gt_descending. congruence.
    + destruct (IH Hl) as (l1' & l2' & Hi & Hi' & Hf1 & Hf2).
      exists (y :: l1'), l2'. cbn [app]. rewrite Hi, Hi'.
      repeat split; trivial. now constructor.
Qed.

(** The sorted array after the push is the sorted leaderboard with the
    new entry put in behind the [rank] entries that have at least its
    shrimps. *)
Lemma sort_push_split (L : Leaderboard) (e : ScoreEntry) :
  exists l1 l2,
    sort (push L e) = l1 ++ e :: l2 /\
    sort L = l1 ++ l2 /\
    List.length l1 = rank e L /\
    Forall (fun y => descending y e) l1 /\
    Forall (fun y => num_ltb (shrimps y) (shrimps e) = true) l2.
Proof.
  assert (H : exists l1 l2,
             sort (push L e) = l1 ++ e :: l2 /\ sort L = l1 ++ l2 /\
             Forall (fun y => descending y e) l1 /\
             Forall (fun y => num_ltb (shrimps y) (shrimps e) = true) l2).
  { unfold push. induction L as [|x L IH].
    - exists [], []. repeat split; trivial.
    - destruct IH as (l1 & l2 & Hs & Hs' & Hf1 & Hf2).
      cbn [app sort]. rewrite Hs, Hs'.
      destruct (insert_place_both x e l2 l1 Hf1 Hf2)
        as (l1' & l2' & Hi & Hi' & Hf1' & Hf2').
      exists l1', l2'. repeat split; trivial. }
  destruct H as (l1 & l2 & Hs & Hs' & Hf1 & Hf2).
  exists l1, l2. repeat split; trivial.
  unfold rank.
  rewrite <- (filter_length_perm _ _ _ (sort_perm L)), Hs', filter_app.
  assert (F1 : filter (fun x => num_leb (shrimps e) (shrimps x)) l1 = l1).
  { clear Hs Hs'. induction Hf1 as [|y l Hy _ IH]; trivial.
    cbn [filter]. unfold descending in Hy. now rewrite Hy, IH. }
  assert (F2 : filter (fun x => num_leb (shrimps e) (shrimps x)) l2 = []).
  { clear Hs Hs'. induction Hf2 as [|y l Hy _ IH]; trivial.
    cbn [filter].
    replace (num_leb (shrimps e) (shrimps y)) with false
      by (unfold num_leb; now rewrite Hy).
    exact IH. }
  rewrite F1, F2, app_nil_r. reflexivity.
Qed.

Lemma sorted_sort_id (l : Leaderboard) : sorted_desc l -> sort l = l.
Proof.
  intros H. symmetry. apply stable_sort_unique; trivial.
Qed.

(** X2: the merged leaderboard has ten entries, or one more than the
    leaderboard read when that is fewer; it is never empty. *)
Theorem merge_length_exact (L : Leaderboard) (e : ScoreEntry) :
  List.length (merge L e) = Nat.min 10 (S (List.length L)) /\
  merge L e <> [].
Proof.
  assert (H : List.length (merge L e) = Nat.min 10 (S (List.length L))).
  { unfold merge, slice_0_10.
    now rewrite length_firstn, sort_length, push_length. }
  split; trivial. intros E. rewrite E in H. cbn [List.length] in H. lia.
Qed.

(** X3: the merge neither invents nor duplicates nor alters entries: the
    entries kept and the entries cut off are, together, the entries read
    plus the new one. In particular every entry kept is the new one or
    one that was read, and nothing is removed because of an equal name. *)
Theorem merge_conserves_entries (L : Leaderboard) (e : ScoreEntry) :
  Permutation (merge L e ++ skipn 10 (sort (push L e))) (e :: L) /\
  (forall x, In x (merge L e) -> x = e \/ In x L).
Proof.
  assert (P : Permutation (merge L e ++ skipn 10 (sort (push L e))) (e :: L)).
  { rewrite <- merge_prefix.
    apply perm_trans with (push L e); [apply sort_perm|].
    unfold push. apply Permutation_sym, Permutation_cons_append. }
  split; trivial.
  intros x Hx.
  assert (Hin : In x (e :: L)).
  { apply (Permutation_in x P). apply in_or_app. now left. }
  destruct Hin as [<- | Hin]; [now left | now right].
Qed.

(** X4: the entries kept are the best ones: each has at least as many
    shrimps as each entry that is cut off. *)
Theorem merge_keeps_best (L : Leaderboard) (e : ScoreEntry) :
  Forall (fun kept =>
            Forall (fun dropped => descending kept dropped)
                   (skipn 10 (sort (push L e))))
         (merge L e).
Proof.
  apply sorted_app_cross. rewrite <- merge_prefix. apply sort_sorted.
Qed.

(** X5: when ten or more entries read have at least the shrimps of the
    new entry, the new entry is cut off: what is written is the first ten
    of the sorted leaderboard read. A tie with the tenth place does not
    get in. *)
Theorem merge_incoming_cut_off (L : Leaderboard) (e : ScoreEntry) :
  10 <= rank e L -> merge L e = firstn 10 (sort L).
Proof.
  intros H.
  destruct (sort_push_split L e) as (l1 & l2 & Hs & Hs' & Hl & _).
  unfold merge, slice_0_10. rewrite Hs, Hs', !firstn_app.
  replace (10 - List.length l1) with 0 by lia. reflexivity.
Qed.

(** X6: when fewer than ten entries read have at least the shrimps of the
    new entry, the new entry is kept, and its index in the merged
    leaderboard is the number of those entries. *)
Theorem merge_incoming_rank (L : Leaderboard) (e : ScoreEntry) :
  rank e L < 10 -> nth_error (merge L e) (rank e L) = Some e.
Proof.
  intros H.
  destruct (sort_push_split L e) as (l1 & l2 & Hs & _ & Hl & _).
  unfold merge, slice_0_10. rewrite Hs, firstn_app, <- Hl.
  rewrite firstn_all2 by lia.
  rewrite nth_error_app2 by lia. rewrite Nat.sub_diag.
  destruct (10 - List.length l1) eqn:E; [lia | reflexivity].
Qed.

(** X7: on a leaderboard that is already sorted the merge moves no entry
    that was read: it puts the new entry between the entries with at least
    its shrimps and those with fewer, and cuts at ten. *)
Theorem merge_sorted_board (L : Leaderboard) (e : ScoreEntry) :
  sorted_desc L ->
  exists before after,
    L = before ++ after /\
    merge L e = firstn 10 (before ++ e :: after) /\
    Forall (fun x => descending x e) before /\
    Forall (fun x => num_ltb (shrimps x) (shrimps e) = true) after.
Proof.
  intros H.
  destruct (sort_push_split L e) as (l1 & l2 & Hs & Hs' & _ & Hf1 & Hf2).
  exists l1, l2. rewrite (sorted_sort_id L H) in Hs'.
  repeat split; trivial. unfold merge, slice_0_10. now rewrite Hs.
Qed.

(** X8: sorting again changes nothing: the merged leaderboard is a fixed
    point of the sort, and so is every sorted array. *)
Theorem resort_is_identity (L : Leaderboard) (e : ScoreEntry) :
  sort (merge L e) = merge L e /\ sort (sort L) = sort L.
Proof.
  split; apply sorted_sort_id.
  - unfold merge, slice_0_10. apply sorted_firstn, sort_sorted.
  - apply sort_sorted.
Qed.

(** ** The handler, path by path *)

Section HandlerRuns.

Variable TextToNumber : value -> option number.

Ltac run_steps :=
  cbv beta iota delta
    [handler destructure bind pure try_catch return_ throw emit console_error
     fetch_get fetch_put response_json as_number negb].

Lemma handler_run_spec (now : string) (store : Store) (req : Request) :
  handler_run TextToNumber now store req (handler TextToNumber now store req).
Proof.
  destruct (String.eqb_spec (method req) "POST") as [Hm | Hm].
  - assert (Hb : body req = VUndefined \/ body req = VNull \/
                 (body req <> VUndefined /\ body req <> VNull)).
    { destruct (body req); (now left) || (now right; left) ||
        (right; right; split; discriminate). }
    destruct Hb as [Hb | [Hb | [Hu Hn]]].
    + replace (handler TextToNumber now store req)
        with (Returned (A:=unit) reply_500_unexpected,
              [ConsoleError "Serverless function error:" "TypeError"]).
      * apply RunNoBody; tauto.
      * unfold handler. now rewrite Hm, Hb.
    + replace (handler TextToNumber now store req)
        with (Returned (A:=unit) reply_500_unexpected,
              [ConsoleError "Serverless function error:" "TypeError"]).
      * apply RunNoBody; tauto.
      * unfold handler. now rewrite Hm, Hb.
    + destruct (invalid TextToNumber (get_prop (body req) "name")
                  (get_prop (body req) "shrimps")) eqn:Hi.
      * rewrite handler_rejects by assumption. now apply RunInvalid.
      * destruct (invalid_number _ _ _ Hi) as [n Hs].
        assert (Hv : valid_post TextToNumber req (get_prop (body req) "name") n).
        { repeat split; trivial. now rewrite <- Hs. }
        destruct (get_reply store) as [r|] eqn:Hg.
        -- destruct (ok r) eqn:Hok.
           ++ destruct (json r) as [d|] eqn:Hj.
              ** pose proof (handler_read_ok _ now store req _ n r d Hv Hg Hok Hj) as H.
                 cbv zeta in H. rewrite H.
                 fold (written store (get_prop (body req) "name") n now).
                 destruct (put_reply store _) as [p|] eqn:Hp;
                   [destruct (ok p) eqn:Hokp|].
                 --- now apply RunWritten with r d p.
                 --- now apply RunWriteRefused with r d.
                 --- now apply RunWriteRejected with r d.
              ** replace (handler TextToNumber now store req)
                   with (Returned (A:=unit) reply_500_unexpected,
                         [FetchGet;
                          ConsoleError "Serverless function error:" "SyntaxError"]).
                 --- now apply RunReadUndecoded with (get_prop (body req) "name") n r.
                 --- destruct Hv as (_ & _ & _ & _ & _ & Hi').
                     rewrite handler_post_fields by assumption. rewrite Hs.
                     unfold post. run_steps.
                     cbn [method body get_prop lookup String.eqb Ascii.eqb Bool.eqb].
                     now rewrite Hi', Hg, Hok, Hj.
           ++ rewrite (handler_read_failed _ now store req _ n r Hv Hg Hok).
              now apply RunReadRefused with (get_prop (body req) "name") n.
        -- replace (handler TextToNumber now store req)
             with (Returned (A:=unit) reply_500_unexpected,
                   [FetchGet; ConsoleError "Serverless function error:" "FetchError"]).
           ++ now apply RunReadRejected with (get_prop (body req) "name") n.
           ++ destruct Hv as (_ & _ & _ & _ & _ & Hi').
              rewrite handler_post_fields by assumption. rewrite Hs.
              unfold post. run_steps.
              cbn [method body get_prop lookup String.eqb Ascii.eqb Bool.eqb].
              now rewrite Hi', Hg.
  - replace (handler TextToNumber now store req)
      with (Returned (A:=unit) reply_405, @nil event).
    + now apply RunNotPost.
    + unfold handler.
      destruct (String.eqb_spec (method req) "POST"); [contradiction | reflexivity].
Qed.

Lemma valid_post_parts (req : Request) (name : value) (n : number) :
  valid_post TextToNumber req name n ->
  method req = "POST" /\
  name = get_prop (body req) "name" /\
  get_prop (body req) "shrimps" = VNumber n /\
  truthy name = true /\
  num_leb (Fin 1) n = true /\
  accepts TextToNumber (body req) = true.
Proof.
  intros (Hm & Hu & Hn & Hname & Hs & Hi).
  assert (Ha : accepts TextToNumber (body req) = true).
  { unfold accepts. rewrite Hname, Hs, Hi. destruct (body req); trivial; contradiction. }
  unfold invalid in Hi. apply orb_false_iff in Hi. destruct Hi as [Hi _].
  apply orb_false_iff in Hi. destruct Hi as [Hi Hlt].
  apply orb_false_iff in Hi. destruct Hi as [Ht _].
  repeat split; trivial.
  - now symmetry.
  - now apply negb_false_iff in Ht.
  - unfold js_lt in Hlt. cbn [ToNumber] in Hlt. unfold num_leb. now rewrite Hlt.
Qed.

Lemma written_invariant (store : Store) (name : value) (n : number) (now : string) :
  List.length (written store name n now) <= 10 /\
  sorted_desc (written store name n now).
Proof.
  unfold written, merge, slice_0_10. split.
  - rewrite length_firstn. lia.
  - apply sorted_firstn, sort_sorted.
Qed.

(** X9: the handler always answers, whatever the request and whatever
    the store does (no exception leaves it), and its answer is one of the
    six fixed replies of the source: the text a store sends back is logged
    at most, never passed on to the caller. *)
Theorem handler_answers (now : string) (store : Store) (req : Request) :
  exists r t,
    handler TextToNumber now store req = (Returned r, t) /\ In r replies.
Proof.
  destruct (handler_run_spec now store req);
    eexists; eexists; (split; [reflexivity|]);
    unfold replies; cbn [In]; auto 10.
Qed.

(** X10: a run calls the store not at all, or reads it once, or reads it
    once and then writes it once: there is no retry and no write without a
    read before it. *)
Theorem store_call_order (now : string) (store : Store) (req : Request) :
  store_calls (snd (handler TextToNumber now store req)) = [] \/
  store_calls (snd (handler TextToNumber now store req)) = [FetchGet] \/
  exists l,
    store_calls (snd (handler TextToNumber now store req)) = [FetchGet; FetchPut l].
Proof.
  destruct (handler_run_spec now store req);
    unfold store_calls; cbn [snd filter is_store_call];
    first [ now left | now right; left | right; right; eexists; reflexivity ].
Qed.

(** X11: the store is read exactly when the request is a POST whose body
    passes line 20 and the check of line 24. *)
Theorem store_read_iff_accepted (now : string) (store : Store) (req : Request) :
  In FetchGet (snd (handler TextToNumber now store req)) <->
  method req = "POST" /\ accepts TextToNumber (body req) = true.
Proof.
  destruct (handler_run_spec now store req) as
    [Hm | Hm Hb | Hm Hu Hn Hi | name n Hv _ | name n r Hv _ _ | name n r Hv _ _ _
     | name n r d Hv _ _ _ _ | name n r d p Hv _ _ _ _ _ | name n r d p Hv _ _ _ _ _];
    cbn [snd].
  - split; [intros [] | intros [Hm' _]; contradiction].
  - split.
    + intros [H | []]. discriminate.
    + intros [_ Ha]. destruct Hb as [Hb | Hb]; rewrite Hb in Ha; discriminate.
  - split; [intros []|]. intros [_ Ha].
    unfold accepts in Ha. rewrite Hi in Ha. destruct (body req); discriminate.
  - destruct (valid_post_parts _ _ _ Hv) as (? & _ & _ & _ & _ & ?).
    split; [tauto | intros _; now left].
  - destruct (valid_post_parts _ _ _ Hv) as (? & _ & _ & _ & _ & ?).
    split; [tauto | intros _; now left].
  - destruct (valid_post_parts _ _ _ Hv) as (? & _ & _ & _ & _ & ?).
    split; [tauto | intros _; now left].
  - destruct (valid_post_parts _ _ _ Hv) as (? & _ & _ & _ & _ & ?).
    split; [tauto | intros _; now left].
  - destruct (valid_post_parts _ _ _ Hv) as (? & _ & _ & _ & _ & ?).
    split; [tauto | intros _; now left].
  - destruct (valid_post_parts _ _ _ Hv) as (? & _ & _ & _ & _ & ?).
    split; [tauto | intros _; now left].
Qed.

(** X12: a 200 is only answered after the store has accepted the write:
    then the payload was valid, the run is the read followed by the write
    of the merged leaderboard, and the reply to that write was a success. *)
Theorem success_means_written (now : string) (store : Store) (req : Request)
    (r : Reply) :
  fst (handler TextToNumber now store req) = Returned r ->
  status r = 200 ->
  exists name n p,
    valid_post TextToNumber req name n /\
    snd (handler TextToNumber now store req)
    = [FetchGet; FetchPut (written store name n now)] /\
    put_reply store (written store name n now) = Some p /\
    ok p = true.
Proof.
  destruct (handler_run_spec now store req) as
    [Hm | Hm Hb | Hm Hu Hn Hi | name n Hv _ | name n r' Hv _ _ | name n r' Hv _ _ _
     | name n r' d Hv _ _ _ _ | name n r' d p Hv _ _ _ _ _
     | name n r' d p Hv _ _ _ Hp Hok];
    cbn [fst snd]; intros Hr Hs; injection Hr as <-; try discriminate Hs.
  exists name, n, p.
  split; [exact Hv | split; [reflexivity | split; assumption]].
Qed.

(** X13: a write to the store is only attempted for a POST whose
    [shrimps] is a number not less than 1 and whose [name] is truthy, and
    only after a read that came back with a success status and a body that
    decodes; the array handed to the write has at most ten entries. *)
Theorem write_only_validated (now : string) (store : Store) (req : Request)
    (l : Leaderboard) :
  In (FetchPut l) (snd (handler TextToNumber now store req)) ->
  method req = "POST" /\
  exists n r d,
    get_prop (body req) "shrimps" = VNumber n /\
    num_leb (Fin 1) n = true /\
    truthy (get_prop (body req) "name") = true /\
    get_reply store = Some r /\ ok r = true /\ json r = Some d /\
    List.length l <= 10.
Proof.
  assert (K : forall name n r d,
             valid_post TextToNumber req name n ->
             get_reply store = Some r -> ok r = true -> json r = Some d ->
             l = written store name n now ->
             method req = "POST" /\
             exists n r d,
               get_prop (body req) "shrimps" = VNumber n /\
               num_leb (Fin 1) n = true /\
               truthy (get_prop (body req) "name") = true /\
               get_reply store = Some r /\ ok r = true /\ json r = Some d /\
               List.length l <= 10).
  { intros name n r d Hv Hg Hok Hj ->.
    destruct (valid_post_parts _ _ _ Hv) as (Hm & -> & Hs & Ht & Hn & _).
    destruct (written_invariant store (get_prop (body req) "name") n now) as [Hl _].
    split; trivial. exists n, r, d. now repeat split. }
  destruct (handler_run_spec now store req) as
    [Hm | Hm Hb | Hm Hu Hn Hi | name n Hv _ | name n r Hv _ _ | name n r Hv _ _ _
     | name n r d Hv Hg Hok Hj _ | name n r d p Hv Hg Hok Hj _ _
     | name n r d p Hv Hg Hok Hj _ _];
    cbn [snd In]; intros Hin;
    repeat (destruct Hin as [Hin | Hin]; try discriminate Hin);
    try contradiction;
    injection Hin as <-; now apply (K name n r d).
Qed.

(** X14: when the store answers the write with a non-success status, the
    reply is 500 'Failed to update leaderboards.'; the write was sent, its
    upstream text is logged, and there is no second attempt. *)
Theorem write_refused_500 (now : string) (store : Store) (req : Request)
    (name : value) (n : number) (r : Response) (d : Document) (p : Response) :
  valid_post TextToNumber req name n ->
  get_reply store = Some r -> ok r = true -> json r = Some d ->
  put_reply store (written store name n now) = Some p -> ok p = false ->
  handler TextToNumber now store req
  = (Returned reply_500_write,
     [FetchGet; FetchPut (written store name n now);
      ConsoleError "Failed to update leaderboard:" (text p)]).
Proof.
  intros Hv Hg Hok Hj Hp Hokp.
  pose proof (handler_read_ok _ now store req name n r d Hv Hg Hok Hj) as H.
  cbv zeta in H. fold (written store name n now) in H.
  now rewrite H, Hp, Hokp.
Qed.

(** X15: when the read of the store throws (the fetch rejects, or the
    reply of a successful status does not decode), the catch answers 500
    'An unexpected error occurred.' and the store is not written: the read
    is the only call. *)
Theorem read_exception_500 (now : string) (store : Store) (req : Request)
    (name : value) (n : number) :
  valid_post TextToNumber req name n ->
  get_reply store = None \/
  (exists r, get_reply store = Some r /\ ok r = true /\ json r = None) ->
  fst (handler TextToNumber now store req) = Returned reply_500_unexpected /\
  store_calls (snd (handler TextToNumber now store req)) = [FetchGet].
Proof.
  intros Hv Hg.
  destruct (handler_read_threw _ now store req name n Hv Hg) as [err H].
  rewrite H. now split.
Qed.

(** X16: when the write itself throws (the fetch rejects), the catch
    answers 500 'An unexpected error occurred.'; the write had been sent. *)
Theorem write_exception_500 (now : string) (store : Store) (req : Request)
    (name : value) (n : number) (r : Response) (d : Document) :
  valid_post TextToNumber req name n ->
  get_reply store = Some r -> ok r = true -> json r = Some d ->
  put_reply store (written store name n now) = None ->
  handler TextToNumber now store req
  = (Returned reply_500_unexpected,
     [FetchGet; FetchPut (written store name n now);
      ConsoleError "Serverless function error:" "FetchError"]).
Proof.
  intros Hv Hg Hok Hj Hp.
  pose proof (handler_read_ok _ now store req name n r d Hv Hg Hok Hj) as H.
  cbv zeta in H. fold (written store name n now) in H.
  now rewrite H, Hp.
Qed.

(** X17: a POST without a body (undefined or null) is not answered 400:
    the destructuring of line 20 throws, the catch answers 500 'An
    unexpected error occurred.', and the store is not called. *)
Theorem no_body_500 (now : string) (store : Store) (req : Request) :
  method req = "POST" ->
  body req = VUndefined \/ body req = VNull ->
  handler TextToNumber now store req
  = (Returned reply_500_unexpected,
     [ConsoleError "Serverless function error:" "TypeError"]).
Proof.
  intros Hm Hb. unfold handler. rewrite Hm.
  destruct Hb as [Hb | Hb]; now rewrite Hb.
Qed.

(** X18: the handler writes to the console exactly when it answers 500:
    every 500 is logged, and a 200, 400 or 405 logs nothing. *)
Theorem logged_iff_500 (now : string) (store : Store) (req : Request) :
  exists r,
    fst (handler TextToNumber now store req) = Returned r /\
    (status r = 500 <->
     exists msg detail,
       In (ConsoleError msg detail) (snd (handler TextToNumber now store req))).
Proof.
  destruct (handler_run_spec now store req);
    eexists; (split; [reflexivity|]); cbn [fst snd status reply_405 reply_400
      reply_200 reply_500_read reply_500_write reply_500_unexpected In];
    (split;
     [ intros Hst; try discriminate Hst;
       eexists; eexists; eauto 6
     | intros (msg & detail & Hin); trivial;
       repeat (destruct Hin as [Hin | Hin]; try discriminate Hin);
       contradiction ]).
Qed.

End HandlerRuns.

(** ** The further properties at concrete requests *)

Lemma three_sorted : sorted_desc three.
Proof. repeat constructor. Defined.

Lemma merge_incoming_cut_off_witness :
  10 <= rank (score "tie" 50 server_time) ten /\
  merge ten (score "tie" 50 server_time) = firstn 10 (sort ten).
Proof.
  assert (H : 10 <= rank (score "tie" 50 server_time) ten) by (vm_compute; lia).
  split; [exact H|].
  exact (merge_incoming_cut_off ten (score "tie" 50 server_time) H).
Defined.

Lemma merge_incoming_rank_witness :
  rank (score "bob" 5 server_time) three < 10 /\
  nth_error (merge three (score "bob" 5 server_time))
            (rank (score "bob" 5 server_time) three)
  = Some (score "bob" 5 server_time).
Proof.
  assert (H : rank (score "bob" 5 server_time) three < 10) by (vm_compute; lia).
  split; [exact H|].
  exact (merge_incoming_rank three (score "bob" 5 server_time) H).
Defined.

Lemma merge_sorted_board_witness :
  sorted_desc three /\
  exists before after,
    three = before ++ after /\
    merge three (score "bob" 5 server_time)
    = firstn 10 (before ++ score "bob" 5 server_time :: after) /\
    Forall (fun x => descending x (score "bob" 5 server_time)) before /\
    Forall (fun x => num_ltb (shrimps x) (shrimps (score "bob" 5 server_time)) = true)
           after.
Proof.
  split; [exact three_sorted|].
  exact (merge_sorted_board three (score "bob" 5 server_time) three_sorted).
Defined.

Lemma success_means_written_witness :
  fst (handler not_numeric server_time store_three (post bob_5)) = Returned reply_200 /\
  status reply_200 = 200 /\
  exists name n p,
    valid_post not_numeric (post bob_5) name n /\
    snd (handler not_numeric server_time store_three (post bob_5))
    = [FetchGet; FetchPut (written store_three name n server_time)] /\
    put_reply store_three (written store_three name n server_time) = Some p /\
    ok p = true.
Proof.
  split; [reflexivity|]. split; [reflexivity|].
  apply (success_means_written not_numeric server_time store_three (post bob_5)
           reply_200); reflexivity.
Defined.

Lemma write_only_validated_witness :
  In (FetchPut (written store_three (VString "bob") (Fin 5) server_time))
     (snd (handler not_numeric server_time store_three (post bob_5))) /\
  method (post bob_5) = "POST" /\
  exists n r d,
    get_prop (body (post bob_5)) "shrimps" = VNumber n /\
    num_leb (Fin 1) n = true /\
    truthy (get_prop (body (post bob_5)) "name") = true /\
    get_reply store_three = Some r /\ ok r = true /\ json r = Some d /\
    List.length (written store_three (VString "bob") (Fin 5) server_time) <= 10.
Proof.
  assert (H : In (FetchPut (written store_three (VString "bob") (Fin 5) server_time))
                 (snd (handler not_numeric server_time store_three (post bob_5))))
    by (right; left; reflexivity).
  split; [exact H|].
  exact (write_only_validated not_numeric server_time store_three (post bob_5) _ H).
Defined.

Lemma write_refused_500_witness :
  valid_post not_numeric (post bob_5) (VString "bob") (Fin 5) /\
  put_reply store_write_refused
    (written store_write_refused (VString "bob") (Fin 5) server_time)
  = Some put_refused /\
  ok put_refused = false /\
  handler not_numeric server_time store_write_refused (post bob_5)
  = (Returned reply_500_write,
     [FetchGet;
      FetchPut (written store_write_refused (VString "bob") (Fin 5) server_time);
      ConsoleError "Failed to update leaderboard:" (text put_refused)]).
Proof.
  split; [exact valid_post_bob|]. split; [reflexivity|]. split; [reflexivity|].
  apply (write_refused_500 not_numeric server_time store_write_refused (post bob_5)
           (VString "bob") (Fin 5)
           (mkResponse true "" (Some (mkDocument (mkBin (Some three)))))
           (mkDocument (mkBin (Some three))) put_refused);
    [exact valid_post_bob | reflexivity | reflexivity | reflexivity
     | reflexivity | reflexivity].
Defined.

Lemma read_exception_500_witness :
  valid_post not_numeric (post bob_5) (VString "bob") (Fin 5) /\
  get_reply store_unreachable = None /\
  fst (handler not_numeric server_time store_unreachable (post bob_5))
  = Returned reply_500_unexpected /\
  store_calls (snd (handler not_numeric server_time store_unreachable (post bob_5)))
  = [FetchGet].
Proof.
  split; [exact valid_post_bob|]. split; [reflexivity|].
  apply (read_exception_500 not_numeric server_time store_unreachable (post bob_5)
           (VString "bob") (Fin 5));
    [exact valid_post_bob | left; reflexivity].
Defined.

Lemma write_exception_500_witness :
  valid_post not_numeric (post bob_5) (VString "bob") (Fin 5) /\
  put_reply store_write_lost
    (written store_write_lost (VString "bob") (Fin 5) server_time) = None /\
  handler not_numeric server_time store_write_lost (post bob_5)
  = (Returned reply_500_unexpected,
     [FetchGet;
      FetchPut (written store_write_lost (VString "bob") (Fin 5) server_time);
      ConsoleError "Serverless function error:" "FetchError"]).
Proof.
  split; [exact valid_post_bob|]. split; [reflexivity|].
  apply (write_exception_500 not_numeric server_time store_write_lost (post bob_5)
           (VString "bob") (Fin 5)
           (mkResponse true "" (Some (mkDocument (mkBin (Some three)))))
           (mkDocument (mkBin (Some three))));
    [exact valid_post_bob | reflexivity | reflexivity | reflexivity | reflexivity].
Defined.

Lemma no_body_500_witness :
  method (post VNull) = "POST" /\
  (body (post VNull) = VUndefined \/ body (post VNull) = VNull) /\
  handler not_numeric server_time store_three (post VNull)
  = (Returned reply_500_unexpected,
     [ConsoleError "Serverless function error:" "TypeError"]).
Proof.
  split; [reflexivity|]. split; [right; reflexivity|].
  apply (no_body_500 not_numeric server_time store_three (post VNull));
    [reflexivity | right; reflexivity].
Defined.
